(** * Permission reporter: tools/perm-mask/test-perm-mask.py

    A shallow embedding of the script and of the small part of the Python
    runtime it relies on (integers, list indexing, exceptions, [print],
    [try]/[except], [for]), followed by the properties of the
    specification. *)

From Stdlib Require Import ZArith List String Ascii Bool Lia.
Import ListNotations.

Local Open Scope string_scope.
Local Open Scope Z_scope.

(** ** The Python fragment *)

Module Py.

(** The built-in exception classes that can reach the script's handlers,
    with their base class as in the Python class hierarchy. *)
Inductive pyclass : Set :=
| BaseException
| Exception
| KeyboardInterrupt
| SystemExit
| OSError
| FileNotFoundError
| PermissionError
| NotADirectoryError
| LookupError
| IndexError
| ValueError
| TypeError.

Definition base (c : pyclass) : option pyclass :=
  match c with
  | BaseException => None
  | Exception | KeyboardInterrupt | SystemExit => Some BaseException
  | OSError | LookupError | ValueError | TypeError => Some Exception
  | FileNotFoundError | PermissionError | NotADirectoryError => Some OSError
  | IndexError => Some LookupError
  end.

Definition class_eqb (c d : pyclass) : bool :=
  match c, d with
  | BaseException, BaseException
  | Exception, Exception
  | KeyboardInterrupt, KeyboardInterrupt
  | SystemExit, SystemExit
  | OSError, OSError
  | FileNotFoundError, FileNotFoundError
  | PermissionError, PermissionError
  | NotADirectoryError, NotADirectoryError
  | LookupError, LookupError
  | IndexError, IndexError
  | ValueError, ValueError
  | TypeError, TypeError => true
  | _, _ => false
  end.

(** [c] is [d] or reaches it by following base classes; the hierarchy
    above is three links deep. *)
Fixpoint subclass_upto (depth : nat) (c d : pyclass) : bool :=
  class_eqb c d ||
  match depth, base c with
  | S depth', Some b => subclass_upto depth' b d
  | _, _ => false
  end.

Definition issubclass (c d : pyclass) : bool := subclass_upto 3 c d.

(** An exception object: its class and what [str(e)] gives. *)
Record exn : Set := mkExn { exc_class : pyclass; exc_str : string }.

(** The outcome of evaluating an expression. *)
Inductive result (A : Type) : Type :=
| Ret (a : A)
| Raise (e : exn).
Arguments Ret {A} a.
Arguments Raise {A} e.

(** Statements run against standard output, kept as the arguments of the
    [print] calls made so far, oldest first. *)
Definition stdout : Type := list string.

Definition Py (A : Type) : Type := stdout -> stdout * result A.

Definition ret {A} (a : A) : Py A := fun out => (out, Ret a).

Definition bind {A B} (m : Py A) (k : A -> Py B) : Py B :=
  fun out =>
    match m out with
    | (out', Ret a) => k a out'
    | (out', Raise e) => (out', Raise e)
    end.

Definition eval {A} (r : result A) : Py A := fun out => (out, r).

Definition print (s : string) : Py unit := fun out => (out ++ [s], Ret tt)%list.

(** [l[i]] on a list: the index is first converted to an index-sized
    integer, which fails with IndexError when it does not fit; then a
    negative index counts from the end, and an index outside the list raises
    IndexError. *)
Definition index_error : exn := mkExn IndexError "list index out of range".

Definition index_overflow_error : exn :=
  mkExn IndexError "cannot fit 'int' into an index-sized integer".

(** [sys.maxsize], the largest index-sized integer, on a 64-bit build. *)
Definition maxsize : Z := 9223372036854775807 (* 2^63 - 1 *).

Definition len {A} (l : list A) : Z := Z.of_nat (List.length l).

Definition list_getitem {A} (l : list A) (i : Z) : result A :=
  if (i <? - maxsize - 1) || (maxsize <? i) then Raise index_overflow_error
  else
    let n := len l in
    let j := if i <? 0 then i + n else i in
    if (j <? 0) || (n <=? j) then Raise index_error
    else
      match nth_error l (Z.to_nat j) with
      | Some a => Ret a
      | None => Raise index_error
      end.

(** [try: body  except c1: h1  except c2 as e: h2 ...]: the first clause
    whose class the exception is an instance of handles it; with no such
    clause the exception propagates. *)
Definition except_clause : Type := pyclass * (exn -> Py unit).

Fixpoint dispatch (clauses : list except_clause) (e : exn) : Py unit :=
  match clauses with
  | [] => eval (Raise e)
  | (c, h) :: clauses' =>
      if issubclass (exc_class e) c then h e else dispatch clauses' e
  end%list.

Definition try_except (body : Py unit) (clauses : list except_clause)
  : Py unit :=
  fun out =>
    match body out with
    | (out', Ret tt) => (out', Ret tt)
    | (out', Raise e) => dispatch clauses e out'
    end.

(** [for x in xs: body]: an exception leaving the body ends the loop. *)
Fixpoint for_in {A} (xs : list A) (body : A -> Py unit) : Py unit :=
  match xs with
  | [] => ret tt
  | x :: xs' => bind (body x) (fun _ => for_in xs' body)
  end%list.

(** What the terminal shows: every printed argument followed by a newline. *)
Definition newline : string := String (ascii_of_nat 10) EmptyString.

Fixpoint render (out : stdout) : string :=
  match out with
  | [] => ""
  | s :: out' => s ++ newline ++ render out'
  end.

(** An integer literal written in octal, most significant digit first. *)
Definition octal (digits : list Z) : Z :=
  fold_left (fun acc d => 8 * acc + d) digits 0.

End Py.

Import Py.

Declare Scope py_scope.
Delimit Scope py_scope with py.
Notation "x <- m ;; k" := (bind m (fun x => k))
  (at level 61, m at next level, right associativity) : py_scope.
Notation "m ;; k" := (bind m (fun _ => k))
  (at level 61, right associativity) : py_scope.

(** ** The script *)

(** [file_path], the literal list of paths the script inspects. *)
Definition file_path : list string :=
  [ "D:\gem\YaeAchievement.exe";
    "D:\gem\Genshin Impact game\GenshinImpact_Data\Persistent\AssetBundles\blocks\15\34980066.blk";
    "D:\gem\Snap Hutao UIGF.json" ].

Definition permissions : list string :=
  [ "---"; "--x"; "-w-"; "-wx"; "r--"; "r-x"; "rw-"; "rwx" ].

(** [def permission_mask_to_string(mask): return permissions[mask]] *)
Definition permission_mask_to_string (mask : Z) : result string :=
  list_getitem permissions mask.

(** [user_permissions = (file_mode & 0o700) >> 6] *)
Definition user_permissions (file_mode : Z) : Z :=
  Z.shiftr (Z.land file_mode (octal [7; 0; 0])) 6.

(** [group_permissions = (file_mode & 0o070) >> 3] *)
Definition group_permissions (file_mode : Z) : Z :=
  Z.shiftr (Z.land file_mode (octal [0; 7; 0])) 3.

(** [other_permissions = file_mode & 0o007] *)
Definition other_permissions (file_mode : Z) : Z :=
  Z.land file_mode (octal [0; 0; 7]).

(** The object [os.stat] returns; the script reads only [st_mode]. *)
Record stat_result : Set := mkStat { st_mode : Z }.

Section Script.

(** [os.stat]: the metadata query, which returns or raises. The script
    changes no file, so within a run the query is a function of the path. *)
Variable os_stat : string -> result stat_result.

(** The body of the [try] statement. *)
Definition report_body (path : string) : Py unit :=
  (st <- eval (os_stat path) ;;
   let file_mode := st_mode st in
   let user := user_permissions file_mode in
   let group := group_permissions file_mode in
   let other := other_permissions file_mode in
   print ("File: " ++ path) ;;
   u <- eval (permission_mask_to_string user) ;;
   print ("  User permissions:  " ++ u) ;;
   g <- eval (permission_mask_to_string group) ;;
   print ("  Group permissions: " ++ g) ;;
   o <- eval (permission_mask_to_string other) ;;
   print ("  Other permissions: " ++ o))%py.

(** The body of the loop: the [try] statement with its two handlers. *)
Definition report (path : string) : Py unit :=
  try_except (report_body path)
    [ (FileNotFoundError, fun _ => print ("File not found: " ++ path));
      (Exception,
       fun e => print ("Error processing file " ++ path ++ ": " ++ exc_str e)) ].

(** [for path in <paths>: ...] *)
Definition run (paths : list string) : Py unit := for_in paths report.

(** The script itself, started with nothing printed yet. *)
Definition main : stdout * result unit := run file_path [].

End Script.

(** ** The specification's vocabulary *)

(** One letter of an rwx string: the capability's letter when its bit is
    present, [-] when it is absent. *)
Definition letter (present : bool) (c : ascii) : ascii :=
  if present then c else "-"%char.

(** [s] is the rendering of the 3-bit value [m]: read from bit 2, write from
    bit 1, execute from bit 0. *)
Definition rwx_of (m : Z) (s : string) : Prop :=
  String.length s = 3%nat /\
  String.get 0 s = Some (letter (Z.testbit m 2) "r") /\
  String.get 1 s = Some (letter (Z.testbit m 1) "w") /\
  String.get 2 s = Some (letter (Z.testbit m 0) "x").

(** The rwx string of bits [lo+2], [lo+1], [lo] of a file mode. *)
Definition rwx_string (file_mode lo : Z) : string :=
  String (letter (Z.testbit file_mode (lo + 2)) "r")
    (String (letter (Z.testbit file_mode (lo + 1)) "w")
       (String (letter (Z.testbit file_mode lo) "x") EmptyString)).

(** The block of output lines the specification gives for one path, by the
    outcome of its metadata query. *)
Definition expected_report (path : string) (outcome : result stat_result)
  : list string :=
  match outcome with
  | Ret st =>
      [ "File: " ++ path;
        "  User permissions:  " ++ rwx_string (st_mode st) 6;
        "  Group permissions: " ++ rwx_string (st_mode st) 3;
        "  Other permissions: " ++ rwx_string (st_mode st) 0 ]
  | Raise e =>
      if issubclass (exc_class e) FileNotFoundError
      then [ "File not found: " ++ path ]
      else [ "Error processing file " ++ path ++ ": " ++ exc_str e ]
  end.

(** The three outcomes of a metadata query the specification speaks of:
    success, not-found, or another error, that is, an exception deriving
    from [Exception] (as every [OSError] does). *)
Definition is_error_or_success (outcome : result stat_result) : bool :=
  match outcome with
  | Ret _ => true
  | Raise e => issubclass (exc_class e) Exception
  end.

(** Whether a metadata query returned, as opposed to raising. *)
Definition is_success (outcome : result stat_result) : bool :=
  match outcome with
  | Ret _ => true
  | Raise _ => false
  end.

(** ** Sample file systems *)

(** A file system with one regular file of mode [0o100754], one entry whose
    metadata cannot be read, and nothing else. *)
Definition sample_os_stat (path : string) : result stat_result :=
  if (path =? "/srv/app/run.sh")%string
  then Ret (mkStat (octal [1; 0; 0; 7; 5; 4]))
  else if (path =? "/root/secret")%string
  then Raise (mkExn PermissionError
                "[Errno 13] Permission denied: '/root/secret'")
  else Raise (mkExn FileNotFoundError
                ("[Errno 2] No such file or directory: '" ++ path ++ "'")).

(** The same entries, where the file also carries the setuid bit and a
    further file exists. *)
Definition sample_os_stat_setuid (path : string) : result stat_result :=
  if (path =? "/srv/app/run.sh")%string
  then Ret (mkStat (octal [1; 0; 4; 7; 5; 4]))
  else if (path =? "/srv/app/notes.txt")%string
  then Ret (mkStat (octal [1; 0; 0; 6; 4; 4]))
  else sample_os_stat path.

(** The same entries, with the further file and no change to the others. *)
Definition sample_os_stat_more (path : string) : result stat_result :=
  if (path =? "/srv/app/notes.txt")%string
  then Ret (mkStat (octal [1; 0; 0; 6; 4; 4]))
  else sample_os_stat path.

(** A query interrupted from the keyboard. *)
Definition interrupted_os_stat (path : string) : result stat_result :=
  if (path =? "/srv/app/run.sh")%string
  then Raise (mkExn KeyboardInterrupt "")
  else sample_os_stat path.

Definition sample_paths : list string :=
  [ "/srv/app/run.sh"; "/srv/app/missing"; "/root/secret"; "/srv/app/run.sh" ].

(** ** Properties *)

(** Decide the integer comparisons of the goal from the hypotheses. *)
Ltac decide_comparisons :=
  repeat match goal with
    | |- context [?a <? ?b] =>
        first [ rewrite (proj2 (Z.ltb_lt a b)) by lia
              | rewrite (proj2 (Z.ltb_ge a b)) by lia ];
        cbv beta iota
    | |- context [?a <=? ?b] =>
        first [ rewrite (proj2 (Z.leb_le a b)) by lia
              | rewrite (proj2 (Z.leb_gt a b)) by lia ];
        cbv beta iota
    end.


(** *** The embedding on concrete inputs *)

Example octal_700 : octal [7; 0; 0] = 448 /\ octal [0; 7; 0] = 56 /\ octal [0; 0; 7] = 7.
Proof. repeat split; reflexivity. Qed.

Example lookup_5 : permission_mask_to_string 5 = Ret "r-x".
Proof. reflexivity. Qed.

Example lookup_8 : permission_mask_to_string 8 = Raise index_error.
Proof. reflexivity. Qed.

Example lookup_minus_8 : permission_mask_to_string (-8) = Ret "---".
Proof. reflexivity. Qed.

Example lookup_minus_9 : permission_mask_to_string (-9) = Raise index_error.
Proof. reflexivity. Qed.

Example lookup_maxsize :
  permission_mask_to_string maxsize = Raise index_error /\
  permission_mask_to_string (- maxsize - 1) = Raise index_error.
Proof. split; reflexivity. Qed.

Example lookup_beyond_maxsize :
  permission_mask_to_string (maxsize + 1) = Raise index_overflow_error /\
  permission_mask_to_string (- maxsize - 2) = Raise index_overflow_error.
Proof. split; reflexivity. Qed.

Example triples_100644 :
  user_permissions 33188 = 6 /\ group_permissions 33188 = 4 /\
  other_permissions 33188 = 4.
Proof. repeat split; reflexivity. Qed.

Example triples_negative_mode :
  user_permissions (-1) = 7 /\ group_permissions (-1) = 7 /\
  other_permissions (-1) = 7.
Proof. repeat split; reflexivity. Qed.

Example handlers_by_class :
  issubclass FileNotFoundError FileNotFoundError = true /\
  issubclass NotADirectoryError FileNotFoundError = false /\
  issubclass NotADirectoryError Exception = true /\
  issubclass IndexError Exception = true /\
  issubclass KeyboardInterrupt Exception = false.
Proof. repeat split; reflexivity. Qed.

Example sample_run_text :
  render (fst (run sample_os_stat [ "/srv/app/missing"; "/root/secret" ] []))
  = "File not found: /srv/app/missing" ++ newline ++
    "Error processing file /root/secret: [Errno 13] Permission denied: '/root/secret'"
    ++ newline.
Proof. reflexivity. Qed.

(** *** The class hierarchy *)

Lemma issubclass_FileNotFoundError_Exception (c : pyclass) :
  issubclass c FileNotFoundError = true -> issubclass c Exception = true.
Proof. destruct c; cbn; intros H; try reflexivity; discriminate H. Qed.

(** *** The monad *)

Lemma Ret_inj {A} (a b : A) : Ret a = Ret b -> a = b.
Proof. congruence. Qed.

Lemma bind_eval_Ret {A B} (a : A) (k : A -> Py B) (out : stdout) :
  bind (eval (Ret a)) k out = k a out.
Proof. reflexivity. Qed.

Lemma bind_eval_Raise {A B} (e : exn) (k : A -> Py B) (out : stdout) :
  bind (eval (Raise e)) k out = (out, Raise e).
Proof. reflexivity. Qed.

Lemma bind_print {B} (s : string) (k : unit -> Py B) (out : stdout) :
  bind (print s) k out = k tt (out ++ [s])%list.
Proof. reflexivity. Qed.

(** *** The lookup table *)

Lemma three_bit_cases (m : Z) :
  0 <= m <= 7 ->
  m = 0 \/ m = 1 \/ m = 2 \/ m = 3 \/ m = 4 \/ m = 5 \/ m = 6 \/ m = 7.
Proof. lia. Qed.

Lemma rwx_of_unique (m : Z) (s s' : string) :
  rwx_of m s -> rwx_of m s' -> s' = s.
Proof.
  unfold rwx_of.
  intros (Hlen & H0 & H1 & H2) (Hlen' & H0' & H1' & H2').
  destruct s as [|a [|b [|c [|d s]]]]; try discriminate Hlen.
  destruct s' as [|a' [|b' [|c' [|d' s']]]]; try discriminate Hlen'.
  cbn in H0, H1, H2, H0', H1', H2'.
  congruence.
Qed.

Lemma rwx_string_spec (file_mode lo m : Z) :
  0 <= lo ->
  (forall i, 0 <= i < 3 -> Z.testbit m i = Z.testbit file_mode (lo + i)) ->
  rwx_of m (rwx_string file_mode lo).
Proof.
  intros Hlo Hbits. unfold rwx_of, rwx_string.
  rewrite (Hbits 2), (Hbits 1), (Hbits 0), Z.add_0_r by lia.
  repeat split; reflexivity.
Qed.

Lemma permission_mask_to_string_table (m : Z) :
  0 <= m <= 7 ->
  permission_mask_to_string m = Ret (rwx_string m 0).
Proof.
  intros Hm.
  destruct (three_bit_cases m Hm) as [-> | [-> | [-> | [-> | [-> | [-> | [-> | ->]]]]]]];
    reflexivity.
Qed.

(** C1. For every m in 0..7, [permission_mask_to_string m] returns one of
    the eight table strings, and it is the only three-character string whose
    first character is r iff bit 2 of m is set, second is w iff bit 1 is set
    and third is x iff bit 0 is set, with - for each absent bit. *)
Theorem permission_mask_to_string_bits (m : Z) :
  0 <= m <= 7 ->
  exists s,
    permission_mask_to_string m = Ret s /\
    In s [ "---"; "--x"; "-w-"; "-wx"; "r--"; "r-x"; "rw-"; "rwx" ] /\
    rwx_of m s /\
    (forall s', rwx_of m s' -> s' = s).
Proof.
  intros Hm. exists (rwx_string m 0).
  assert (Hspec : rwx_of m (rwx_string m 0)).
  { apply rwx_string_spec; [lia | intros i _; reflexivity]. }
  split; [| split; [| split]].
  - now apply permission_mask_to_string_table.
  - destruct (three_bit_cases m Hm)
      as [-> | [-> | [-> | [-> | [-> | [-> | [-> | ->]]]]]]]; cbn; tauto.
  - exact Hspec.
  - intros s' Hs'. now apply (rwx_of_unique m).
Qed.

Lemma permission_mask_to_string_bits_witness :
  0 <= 5 <= 7 /\
  exists s,
    permission_mask_to_string 5 = Ret s /\
    In s [ "---"; "--x"; "-w-"; "-wx"; "r--"; "r-x"; "rw-"; "rwx" ] /\
    rwx_of 5 s /\
    (forall s', rwx_of 5 s' -> s' = s).
Proof.
  split; [lia | apply (permission_mask_to_string_bits 5); lia].
Defined.

Section ListGetitem.

Context {A : Type}.
Variable l : list A.

(** A list holds at most [sys.maxsize] entries. *)
Hypothesis len_fits : len l <= maxsize.

Lemma list_getitem_in_range (i : Z) :
  0 <= i < len l ->
  exists a, nth_error l (Z.to_nat i) = Some a /\ list_getitem l i = Ret a.
Proof.
  intros Hi. unfold list_getitem, maxsize in *; cbv zeta.
  decide_comparisons. cbn [orb].
  destruct (nth_error l (Z.to_nat i)) as [a |] eqn:Hnth.
  - now exists a.
  - apply nth_error_None in Hnth. unfold len in Hi. lia.
Qed.

Lemma list_getitem_from_end (i : Z) :
  - len l <= i < 0 -> list_getitem l i = list_getitem l (i + len l).
Proof.
  intros Hi. unfold list_getitem, maxsize in *; cbv zeta.
  decide_comparisons. reflexivity.
Qed.

Lemma list_getitem_index_error (i : Z) :
  i < - len l \/ len l <= i ->
  list_getitem l i
  = Raise (if (- maxsize - 1 <=? i) && (i <=? maxsize)
           then index_error else index_overflow_error).
Proof.
  intros Hi. unfold list_getitem, maxsize in *; cbv zeta.
  assert (Hn : 0 <= len l) by apply Nat2Z.is_nonneg.
  destruct (Z.ltb_spec i (-9223372036854775807 - 1));
    [ decide_comparisons; reflexivity |].
  destruct (Z.ltb_spec 9223372036854775807 i);
    [ decide_comparisons; reflexivity |].
  cbn [orb].
  destruct (Z.ltb_spec i 0); cbv beta iota; decide_comparisons;
    cbn [orb andb]; rewrite ?orb_true_r; reflexivity.
Qed.

End ListGetitem.

Lemma permissions_len_fits : len permissions <= maxsize.
Proof. discriminate. Qed.

Lemma permission_mask_to_string_from_end (m : Z) :
  -8 <= m < 0 ->
  permission_mask_to_string m = permission_mask_to_string (m + 8).
Proof.
  intros Hm.
  now apply (list_getitem_from_end permissions permissions_len_fits).
Qed.

Lemma permission_mask_to_string_index_error (m : Z) :
  m < -8 \/ 7 < m ->
  permission_mask_to_string m
  = Raise (if (- maxsize - 1 <=? m) && (m <=? maxsize)
           then index_error else index_overflow_error).
Proof.
  intros Hm. apply (list_getitem_index_error permissions).
  change (len permissions) with 8. lia.
Qed.

Lemma permission_mask_to_string_raises_IndexError (m : Z) :
  m < -8 \/ 7 < m ->
  exists e, permission_mask_to_string m = Raise e /\ exc_class e = IndexError.
Proof.
  intros Hm. rewrite (permission_mask_to_string_index_error m Hm).
  eexists. split; [reflexivity |].
  now destruct ((- maxsize - 1 <=? m) && (m <=? maxsize)).
Qed.

(** C2, counterexample. Python's negative indices reach the table from its
    end: the mask -1 is not in 0..7 and the call still returns a permission
    string, rwx. *)
Lemma permission_mask_to_string_negative_mask :
  ~ (0 <= -1 <= 7) /\
  permission_mask_to_string (-1) = Ret "rwx" /\
  In "rwx" [ "---"; "--x"; "-w-"; "-wx"; "r--"; "r-x"; "rw-"; "rwx" ] /\
  ~ (forall m : Z,
        ~ (0 <= m <= 7) ->
        ~ exists s,
            permission_mask_to_string m = Ret s /\
            In s [ "---"; "--x"; "-w-"; "-wx"; "r--"; "r-x"; "rw-"; "rwx" ]).
Proof.
  assert (Hin : In "rwx" [ "---"; "--x"; "-w-"; "-wx"; "r--"; "r-x"; "rw-"; "rwx" ])
    by (cbn; tauto).
  split; [lia | split; [reflexivity | split; [exact Hin |]]].
  intros H. apply (H (-1)); [lia |].
  exists "rwx". split; [reflexivity | exact Hin].
Qed.

(** C2, amended. A mask outside 0..7 is an index error, loudly, exactly when
    it is also outside -8..-1: for m < -8 or m > 7 the call raises
    IndexError and returns no string, while for m in -8..-1 the negative
    index is taken from the end of the table and the call returns the entry
    of m + 8. *)
Theorem permission_mask_to_string_out_of_range (m : Z) :
  ~ (0 <= m <= 7) ->
  if (-8 <=? m) && (m <? 0)
  then permission_mask_to_string m = permission_mask_to_string (m + 8) /\
       permission_mask_to_string m = Ret (rwx_string (m + 8) 0)
  else exists e,
         permission_mask_to_string m = Raise e /\ exc_class e = IndexError.
Proof.
  intros Hm.
  destruct (Z.leb_spec (-8) m) as [Hlo | Hlo];
    destruct (Z.ltb_spec m 0) as [Hneg | Hneg]; cbn [andb].
  - rewrite permission_mask_to_string_from_end by lia.
    split; [reflexivity | apply permission_mask_to_string_table; lia].
  - apply permission_mask_to_string_raises_IndexError. lia.
  - apply permission_mask_to_string_raises_IndexError. lia.
  - apply permission_mask_to_string_raises_IndexError. lia.
Qed.

Lemma permission_mask_to_string_out_of_range_witness :
  ~ (0 <= 8 <= 7) /\
  exists e, permission_mask_to_string 8 = Raise e /\ exc_class e = IndexError.
Proof.
  split; [lia | apply (permission_mask_to_string_out_of_range 8); lia].
Defined.

(** *** The permission triples *)

Lemma user_permissions_land (file_mode : Z) :
  user_permissions file_mode = Z.land (Z.shiftr file_mode 6) (Z.ones 3).
Proof. unfold user_permissions. now rewrite Z.shiftr_land. Qed.

Lemma group_permissions_land (file_mode : Z) :
  group_permissions file_mode = Z.land (Z.shiftr file_mode 3) (Z.ones 3).
Proof. unfold group_permissions. now rewrite Z.shiftr_land. Qed.

Lemma other_permissions_land (file_mode : Z) :
  other_permissions file_mode = Z.land (Z.shiftr file_mode 0) (Z.ones 3).
Proof. unfold other_permissions. now rewrite Z.shiftr_0_r. Qed.

(** Bit [i] of the 3-bit field of [x] that starts at bit [lo]. *)
Lemma field_testbit (x lo i : Z) :
  0 <= lo -> 0 <= i ->
  Z.testbit (Z.land (Z.shiftr x lo) (Z.ones 3)) i
  = (i <? 3) && Z.testbit x (lo + i).
Proof.
  intros Hlo Hi.
  rewrite Z.land_spec, Z.shiftr_spec, (Z.add_comm i lo) by assumption.
  destruct (Z.ltb_spec i 3).
  - rewrite Z.ones_spec_low by lia. now rewrite andb_true_r.
  - rewrite Z.ones_spec_high by lia. now rewrite andb_false_r.
Qed.

Lemma field_div_mod (x lo : Z) :
  0 <= lo -> Z.land (Z.shiftr x lo) (Z.ones 3) = (x / 2 ^ lo) mod 8.
Proof.
  intros Hlo. rewrite Z.land_ones, Z.shiftr_div_pow2 by lia. reflexivity.
Qed.

Lemma field_range (x lo : Z) :
  0 <= lo -> 0 <= Z.land (Z.shiftr x lo) (Z.ones 3) <= 7.
Proof.
  intros Hlo. rewrite field_div_mod by assumption.
  pose proof (Z.mod_pos_bound (x / 2 ^ lo) 8). lia.
Qed.

Lemma triples_div_mod (file_mode : Z) :
  user_permissions file_mode = (file_mode / 64) mod 8 /\
  group_permissions file_mode = (file_mode / 8) mod 8 /\
  other_permissions file_mode = file_mode mod 8.
Proof.
  rewrite user_permissions_land, group_permissions_land,
    other_permissions_land, !field_div_mod by lia.
  change (2 ^ 6) with 64. change (2 ^ 3) with 8. change (2 ^ 0) with 1.
  now rewrite Z.div_1_r.
Qed.

(** C3. For every file mode the three triples are the fixed bit fields:
    owner is bits 6-8, group is bits 3-5, other is bits 0-2, obtained as
    [(mode & 0o700) >> 6], [(mode & 0o070) >> 3] and [mode & 0o007]. *)
Theorem permission_triples_bit_fields (file_mode : Z) :
  (user_permissions file_mode = Z.shiftr (Z.land file_mode 448 (* 0o700 *)) 6 /\
   group_permissions file_mode = Z.shiftr (Z.land file_mode 56 (* 0o070 *)) 3 /\
   other_permissions file_mode = Z.land file_mode 7 (* 0o007 *)) /\
  (user_permissions file_mode = (file_mode / 64) mod 8 /\
   group_permissions file_mode = (file_mode / 8) mod 8 /\
   other_permissions file_mode = file_mode mod 8) /\
  (forall i, 0 <= i ->
     Z.testbit (user_permissions file_mode) i
     = (i <? 3) && Z.testbit file_mode (6 + i) /\
     Z.testbit (group_permissions file_mode) i
     = (i <? 3) && Z.testbit file_mode (3 + i) /\
     Z.testbit (other_permissions file_mode) i
     = (i <? 3) && Z.testbit file_mode (0 + i)).
Proof.
  split; [| split].
  - repeat split; reflexivity.
  - apply triples_div_mod.
  - intros i Hi.
    rewrite user_permissions_land, group_permissions_land,
      other_permissions_land, !field_testbit by lia.
    repeat split; reflexivity.
Qed.

Lemma triples_in_range (file_mode : Z) :
  0 <= user_permissions file_mode <= 7 /\
  0 <= group_permissions file_mode <= 7 /\
  0 <= other_permissions file_mode <= 7.
Proof.
  rewrite user_permissions_land, group_permissions_land,
    other_permissions_land.
  repeat split; apply field_range; lia.
Qed.

(** The string the table gives for each triple is the rwx string of the
    corresponding bits of the mode. *)
Lemma rwx_string_field (x lo : Z) :
  0 <= lo ->
  rwx_string (Z.land (Z.shiftr x lo) (Z.ones 3)) 0 = rwx_string x lo.
Proof.
  intros Hlo. unfold rwx_string.
  change (0 + 2) with 2. change (0 + 1) with 1.
  now rewrite !field_testbit, Z.add_0_r by lia.
Qed.

Lemma permission_mask_to_string_user (file_mode : Z) :
  permission_mask_to_string (user_permissions file_mode)
  = Ret (rwx_string file_mode 6).
Proof.
  rewrite permission_mask_to_string_table by apply triples_in_range.
  now rewrite user_permissions_land, rwx_string_field by lia.
Qed.

Lemma permission_mask_to_string_group (file_mode : Z) :
  permission_mask_to_string (group_permissions file_mode)
  = Ret (rwx_string file_mode 3).
Proof.
  rewrite permission_mask_to_string_table by apply triples_in_range.
  now rewrite group_permissions_land, rwx_string_field by lia.
Qed.

Lemma permission_mask_to_string_other (file_mode : Z) :
  permission_mask_to_string (other_permissions file_mode)
  = Ret (rwx_string file_mode 0).
Proof.
  rewrite permission_mask_to_string_table by apply triples_in_range.
  now rewrite other_permissions_land, rwx_string_field by lia.
Qed.

(** C4. For every non-negative file mode each of the three masked triples
    lies in 0..7, so every table lookup of the report returns a string. *)
Theorem masked_triples_in_range (file_mode : Z) :
  0 <= file_mode ->
  (0 <= user_permissions file_mode <= 7 /\
   0 <= group_permissions file_mode <= 7 /\
   0 <= other_permissions file_mode <= 7) /\
  (exists u g o,
     permission_mask_to_string (user_permissions file_mode) = Ret u /\
     permission_mask_to_string (group_permissions file_mode) = Ret g /\
     permission_mask_to_string (other_permissions file_mode) = Ret o).
Proof.
  intros _. split; [apply triples_in_range |].
  exists (rwx_string file_mode 6), (rwx_string file_mode 3),
    (rwx_string file_mode 0).
  repeat split;
    [ apply permission_mask_to_string_user
    | apply permission_mask_to_string_group
    | apply permission_mask_to_string_other ].
Qed.

Lemma masked_triples_in_range_witness :
  0 <= 33188 (* 0o100644 *) /\
  (0 <= user_permissions 33188 <= 7 /\
   0 <= group_permissions 33188 <= 7 /\
   0 <= other_permissions 33188 <= 7) /\
  (exists u g o,
     permission_mask_to_string (user_permissions 33188) = Ret u /\
     permission_mask_to_string (group_permissions 33188) = Ret g /\
     permission_mask_to_string (other_permissions 33188) = Ret o).
Proof.
  split; [lia | apply (masked_triples_in_range 33188); lia].
Defined.

(** *** One report *)

Section Report.

Variable os_stat : string -> result stat_result.

Lemma report_body_success (path : string) (st : stat_result) (out : stdout) :
  os_stat path = Ret st ->
  report_body os_stat path out
  = ((out ++ expected_report path (Ret st))%list, Ret tt).
Proof.
  intros Hstat. unfold report_body. rewrite Hstat, bind_eval_Ret.
  cbv zeta.
  rewrite bind_print, permission_mask_to_string_user, bind_eval_Ret.
  rewrite bind_print, permission_mask_to_string_group, bind_eval_Ret.
  rewrite bind_print, permission_mask_to_string_other, bind_eval_Ret.
  unfold print, expected_report.
  now rewrite <- !app_assoc.
Qed.

Lemma report_body_failure (path : string) (e : exn) (out : stdout) :
  os_stat path = Raise e ->
  report_body os_stat path out = (out, Raise e).
Proof.
  intros Hstat. unfold report_body. now rewrite Hstat, bind_eval_Raise.
Qed.

Lemma report_success (path : string) (st : stat_result) (out : stdout) :
  os_stat path = Ret st ->
  report os_stat path out
  = ((out ++ expected_report path (Ret st))%list, Ret tt).
Proof.
  intros Hstat. unfold report, try_except.
  now rewrite (report_body_success path st out Hstat).
Qed.

Lemma report_not_found (path : string) (e : exn) (out : stdout) :
  os_stat path = Raise e ->
  issubclass (exc_class e) FileNotFoundError = true ->
  report os_stat path out
  = (app out [ "File not found: " ++ path ], Ret tt).
Proof.
  intros Hstat Hclass. unfold report, try_except.
  rewrite (report_body_failure path e out Hstat).
  cbn [dispatch]. now rewrite Hclass.
Qed.

Lemma report_other (path : string) (e : exn) (out : stdout) :
  os_stat path = Raise e ->
  issubclass (exc_class e) FileNotFoundError = false ->
  issubclass (exc_class e) Exception = true ->
  report os_stat path out
  = (app out [ "Error processing file " ++ path ++ ": " ++ exc_str e ],
     Ret tt).
Proof.
  intros Hstat Hnf Hexc. unfold report, try_except.
  rewrite (report_body_failure path e out Hstat).
  cbn [dispatch]. now rewrite Hnf, Hexc.
Qed.

Lemma report_unhandled (path : string) (e : exn) (out : stdout) :
  os_stat path = Raise e ->
  issubclass (exc_class e) Exception = false ->
  report os_stat path out = (out, Raise e).
Proof.
  intros Hstat Hexc. unfold report, try_except.
  rewrite (report_body_failure path e out Hstat).
  cbn [dispatch].
  destruct (issubclass (exc_class e) FileNotFoundError) eqn:Hnf.
  - apply issubclass_FileNotFoundError_Exception in Hnf. congruence.
  - now rewrite Hexc.
Qed.

Lemma report_expected (path : string) (out : stdout) :
  is_error_or_success (os_stat path) = true ->
  report os_stat path out
  = ((out ++ expected_report path (os_stat path))%list, Ret tt).
Proof.
  destruct (os_stat path) as [st | e] eqn:Hstat; cbn [is_error_or_success].
  - intros _. now apply report_success.
  - intros Hexc. cbn [expected_report].
    destruct (issubclass (exc_class e) FileNotFoundError) eqn:Hnf.
    + now apply report_not_found with (e := e).
    + now apply report_other.
Qed.

Lemma run_cons (path : string) (rest : list string) (out : stdout) :
  run os_stat (path :: rest) out
  = match report os_stat path out with
    | (out', Ret _) => run os_stat rest out'
    | (out', Raise e) => (out', Raise e)
    end.
Proof. reflexivity. Qed.

Lemma run_expected (paths : list string) :
  forall out : stdout,
    (forall p, In p paths -> is_error_or_success (os_stat p) = true) ->
    run os_stat paths out
    = (app out
         (List.concat (map (fun p => expected_report p (os_stat p)) paths)),
       Ret tt).
Proof.
  induction paths as [| path rest IH]; intros out Hall.
  - cbn. now rewrite app_nil_r.
  - rewrite run_cons, report_expected by (apply Hall; now left).
    rewrite IH by (intros p Hp; apply Hall; now right).
    cbn [map List.concat]. now rewrite app_assoc.
Qed.

End Report.

Lemma report_ext (os_stat1 os_stat2 : string -> result stat_result)
  (path : string) (out : stdout) :
  os_stat1 path = os_stat2 path ->
  report os_stat1 path out = report os_stat2 path out.
Proof.
  intros Hsame. unfold report, try_except, report_body. now rewrite Hsame.
Qed.

Lemma low_bits_testbit (n x y i : Z) :
  Z.land x (Z.ones n) = Z.land y (Z.ones n) ->
  0 <= i < n ->
  Z.testbit x i = Z.testbit y i.
Proof.
  intros Hland Hi.
  assert (H : Z.testbit (Z.land x (Z.ones n)) i
              = Z.testbit (Z.land y (Z.ones n)) i) by now rewrite Hland.
  now rewrite !Z.land_spec, Z.ones_spec_low, !andb_true_r in H by lia.
Qed.

Lemma expected_report_mode_low_bits (path : string) (st1 st2 : stat_result) :
  Z.land (st_mode st1) (octal [7; 7; 7]) = Z.land (st_mode st2) (octal [7; 7; 7]) ->
  expected_report path (Ret st1) = expected_report path (Ret st2).
Proof.
  change (octal [7; 7; 7]) with (Z.ones 9). intros Hland.
  unfold expected_report, rwx_string.
  now rewrite !(low_bits_testbit 9 (st_mode st1) (st_mode st2) _ Hland) by lia.
Qed.

(** C5. For a file whose mode has owner bits 0b111, group bits 0b101 and
    other bits 0b100, the report prints rwx on the owner line, r-x on the
    group line and r-- on the other line. *)
Theorem report_rwx_rx_r (os_stat : string -> result stat_result)
  (path : string) (st : stat_result) (out : stdout) :
  os_stat path = Ret st ->
  (st_mode st / 64) mod 8 = 7 ->
  (st_mode st / 8) mod 8 = 5 ->
  st_mode st mod 8 = 4 ->
  report os_stat path out
  = (app out [ "File: " ++ path;
               "  User permissions:  rwx";
               "  Group permissions: r-x";
               "  Other permissions: r--" ],
     Ret tt).
Proof.
  intros Hstat Hu Hg Ho.
  destruct (triples_div_mod (st_mode st)) as (Eu & Eg & Eo).
  assert (Su := permission_mask_to_string_user (st_mode st)).
  assert (Sg := permission_mask_to_string_group (st_mode st)).
  assert (So := permission_mask_to_string_other (st_mode st)).
  rewrite Eu, Hu in Su. rewrite Eg, Hg in Sg. rewrite Eo, Ho in So.
  apply (Ret_inj "rwx") in Su. apply (Ret_inj "r-x") in Sg.
  apply (Ret_inj "r--") in So.
  rewrite (report_success os_stat path st out Hstat).
  unfold expected_report. now rewrite <- Su, <- Sg, <- So.
Qed.

Lemma report_rwx_rx_r_witness :
  sample_os_stat "/srv/app/run.sh" = Ret (mkStat 33260 (* 0o100754 *)) /\
  (33260 / 64) mod 8 = 7 /\ (33260 / 8) mod 8 = 5 /\ 33260 mod 8 = 4 /\
  report sample_os_stat "/srv/app/run.sh" []
  = ([ "File: /srv/app/run.sh";
       "  User permissions:  rwx";
       "  Group permissions: r-x";
       "  Other permissions: r--" ],
     Ret tt).
Proof.
  repeat (split; [reflexivity |]).
  apply (report_rwx_rx_r sample_os_stat "/srv/app/run.sh" (mkStat 33260) []);
    reflexivity.
Defined.





(** *** The whole run *)

(** C8. For a list of N paths whose queries succeed, signal not-found or
    fail with another error, in any mix, the run prints exactly N reports,
    the i-th being the report of the i-th path, one after the other in the
    order of the list, and ends normally. *)
Theorem run_reports_every_path_in_order
  (os_stat : string -> result stat_result) (paths : list string)
  (out : stdout) :
  (forall p, In p paths -> is_error_or_success (os_stat p) = true) ->
  run os_stat paths out
  = (app out
       (List.concat (map (fun p => expected_report p (os_stat p)) paths)),
     Ret tt) /\
  List.length (map (fun p => expected_report p (os_stat p)) paths)
  = List.length paths /\
  Forall (fun block : list string => block <> [])
    (map (fun p => expected_report p (os_stat p)) paths).
Proof.
  intros Hall. split; [now apply run_expected | split].
  - apply length_map.
  - apply Forall_map, Forall_forall. intros p _.
    unfold expected_report.
    destruct (os_stat p) as [st | e]; [discriminate |].
    destruct (issubclass (exc_class e) FileNotFoundError); discriminate.
Qed.

Lemma run_reports_every_path_in_order_witness :
  (forall p, In p sample_paths ->
             is_error_or_success (sample_os_stat p) = true) /\
  run sample_os_stat sample_paths []
  = ([ "File: /srv/app/run.sh";
       "  User permissions:  rwx";
       "  Group permissions: r-x";
       "  Other permissions: r--";
       "File not found: /srv/app/missing";
       "Error processing file /root/secret: [Errno 13] Permission denied: '/root/secret'";
       "File: /srv/app/run.sh";
       "  User permissions:  rwx";
       "  Group permissions: r-x";
       "  Other permissions: r--" ],
     Ret tt) /\
  List.length
    (map (fun p => expected_report p (sample_os_stat p)) sample_paths)
  = 4%nat /\
  Forall (fun block : list string => block <> [])
    (map (fun p => expected_report p (sample_os_stat p)) sample_paths).
Proof.
  assert (Hall : forall p, In p sample_paths ->
                           is_error_or_success (sample_os_stat p) = true).
  { intros p Hp. cbn in Hp.
    destruct Hp as [<- | [<- | [<- | [<- | []]]]]; reflexivity. }
  split; [exact Hall |].
  apply (run_reports_every_path_in_order sample_os_stat sample_paths [] Hall).
Defined.

(** C9. Two runs over the same list of paths in which the metadata query
    gives the same result for every path of the list print the same text,
    character for character, and end the same way. *)
Theorem run_deterministic (os_stat1 os_stat2 : string -> result stat_result)
  (paths : list string) (out : stdout) :
  (forall p, In p paths -> os_stat1 p = os_stat2 p) ->
  run os_stat1 paths out = run os_stat2 paths out /\
  render (fst (run os_stat1 paths out)) = render (fst (run os_stat2 paths out)).
Proof.
  intros Hsame.
  assert (Hrun : run os_stat1 paths out = run os_stat2 paths out).
  { revert out. induction paths as [| path rest IH]; intros out.
    - reflexivity.
    - rewrite !run_cons.
      rewrite (report_ext os_stat1 os_stat2 path out)
        by (apply Hsame; now left).
      destruct (report os_stat2 path out) as [out' [[] | e]].
      + apply IH. intros p Hp. apply Hsame. now right.
      + reflexivity. }
  split; [exact Hrun | now rewrite Hrun].
Qed.

Lemma run_deterministic_witness :
  (forall p, In p sample_paths -> sample_os_stat p = sample_os_stat_more p) /\
  sample_os_stat "/srv/app/notes.txt" <> sample_os_stat_more "/srv/app/notes.txt" /\
  run sample_os_stat sample_paths [] = run sample_os_stat_more sample_paths [] /\
  render (fst (run sample_os_stat sample_paths []))
  = render (fst (run sample_os_stat_more sample_paths [])).
Proof.
  assert (Hsame : forall p, In p sample_paths ->
                            sample_os_stat p = sample_os_stat_more p).
  { intros p Hp. cbn in Hp.
    destruct Hp as [<- | [<- | [<- | [<- | []]]]]; reflexivity. }
  split; [exact Hsame | split; [discriminate |]].
  apply (run_deterministic sample_os_stat sample_os_stat_more sample_paths []
           Hsame).
Defined.

(** C10. A successful report depends only on the low nine bits of the
    mode: for two modes that agree on [mode & 0o777] the four lines printed
    for the same path are the same. *)
Theorem report_low_9_bits (os_stat1 os_stat2 : string -> result stat_result)
  (path : string) (st1 st2 : stat_result) (out : stdout) :
  os_stat1 path = Ret st1 ->
  os_stat2 path = Ret st2 ->
  Z.land (st_mode st1) (octal [7; 7; 7]) = Z.land (st_mode st2) (octal [7; 7; 7]) ->
  report os_stat1 path out = report os_stat2 path out /\
  exists user group other,
    report os_stat1 path out
    = (app out [ "File: " ++ path;
                 "  User permissions:  " ++ user;
                 "  Group permissions: " ++ group;
                 "  Other permissions: " ++ other ],
       Ret tt).
Proof.
  intros Hstat1 Hstat2 Hland.
  rewrite (report_success os_stat1 path st1 out Hstat1),
    (report_success os_stat2 path st2 out Hstat2).
  split.
  - now rewrite (expected_report_mode_low_bits path st1 st2 Hland).
  - now exists (rwx_string (st_mode st1) 6), (rwx_string (st_mode st1) 3),
      (rwx_string (st_mode st1) 0).
Qed.

Lemma report_low_9_bits_witness :
  sample_os_stat "/srv/app/run.sh" = Ret (mkStat 33260 (* 0o100754 *)) /\
  sample_os_stat_setuid "/srv/app/run.sh" = Ret (mkStat 35308 (* 0o104754 *)) /\
  Z.land 33260 (octal [7; 7; 7]) = Z.land 35308 (octal [7; 7; 7]) /\
  report sample_os_stat "/srv/app/run.sh" []
  = report sample_os_stat_setuid "/srv/app/run.sh" [] /\
  exists user group other,
    report sample_os_stat "/srv/app/run.sh" []
    = (app [] [ "File: " ++ "/srv/app/run.sh";
                "  User permissions:  " ++ user;
                "  Group permissions: " ++ group;
                "  Other permissions: " ++ other ],
       Ret tt).
Proof.
  repeat (split; [reflexivity |]).
  apply (report_low_9_bits sample_os_stat sample_os_stat_setuid
           "/srv/app/run.sh" (mkStat 33260) (mkStat 35308) []);
    reflexivity.
Defined.

(** *** Outside the specification's three outcomes *)

(** An exception that does not derive from [Exception] is caught by neither
    handler: it leaves the loop, and the later paths are not reported. *)
Remark run_interrupted :
  run interrupted_os_stat [ "/srv/app/missing"; "/srv/app/run.sh"; "/root/secret" ] []
  = ([ "File not found: /srv/app/missing" ],
     Raise (mkExn KeyboardInterrupt "")).
Proof. reflexivity. Qed.

(** The script's own paths on a file system that has none of them. *)
Example main_nothing_found :
  render (fst (main sample_os_stat))
  = "File not found: D:\gem\YaeAchievement.exe" ++ newline ++
    "File not found: D:\gem\Genshin Impact game\GenshinImpact_Data\Persistent\AssetBundles\blocks\15\34980066.blk" ++ newline ++
    "File not found: D:\gem\Snap Hutao UIGF.json" ++ newline.
Proof. reflexivity. Qed.

(** ** Further properties of the script *)

(** *** The loop over a list in two parts *)

Lemma run_app (os_stat : string -> result stat_result)
  (first second : list string) :
  forall out : stdout,
    run os_stat (first ++ second)%list out
    = match run os_stat first out with
      | (out', Ret _) => run os_stat second out'
      | (out', Raise e) => (out', Raise e)
      end.
Proof.
  induction first as [| path rest IH]; intros out.
  - reflexivity.
  - cbn [app]. rewrite !run_cons.
    destruct (report os_stat path out) as [out' [[] | e]].
    + apply IH.
    + reflexivity.
Qed.

(** X3. An exception that does not derive from [Exception] ends the run at
    the path whose query raised it: the reports of the earlier paths are
    printed, nothing is printed for that path or for any later one, and the
    run ends with that exception. *)
Theorem run_stops_at_escaping_exception
  (os_stat : string -> result stat_result)
  (earlier : list string) (path : string) (later : list string)
  (e : exn) (out : stdout) :
  (forall p, In p earlier -> is_error_or_success (os_stat p) = true) ->
  os_stat path = Raise e ->
  issubclass (exc_class e) Exception = false ->
  run os_stat (earlier ++ path :: later)%list out
  = (app out
       (List.concat (map (fun p => expected_report p (os_stat p)) earlier)),
     Raise e).
Proof.
  intros Hearlier Hstat Hexc.
  rewrite run_app, (run_expected os_stat earlier out Hearlier), run_cons.
  now rewrite (report_unhandled os_stat path e _ Hstat Hexc).
Qed.

Lemma run_stops_at_escaping_exception_witness :
  (forall p, In p [ "/srv/app/missing" ] ->
             is_error_or_success (interrupted_os_stat p) = true) /\
  interrupted_os_stat "/srv/app/run.sh" = Raise (mkExn KeyboardInterrupt "") /\
  issubclass KeyboardInterrupt Exception = false /\
  run interrupted_os_stat
    [ "/srv/app/missing"; "/srv/app/run.sh"; "/root/secret" ] []
  = ([ "File not found: /srv/app/missing" ],
     Raise (mkExn KeyboardInterrupt "")).
Proof.
  assert (Hearlier : forall p, In p [ "/srv/app/missing" ] ->
                               is_error_or_success (interrupted_os_stat p) = true).
  { intros p [<- | []]. reflexivity. }
  split; [exact Hearlier | split; [reflexivity | split; [reflexivity |]]].
  apply (run_stops_at_escaping_exception interrupted_os_stat
           [ "/srv/app/missing" ] "/srv/app/run.sh" [ "/root/secret" ]
           (mkExn KeyboardInterrupt "") [] Hearlier);
    reflexivity.
Defined.

(** *** Earlier output is left alone *)




(** *** The table and the triples lose nothing *)

Lemma table_injective (m1 m2 : Z) :
  0 <= m1 <= 7 -> 0 <= m2 <= 7 ->
  permission_mask_to_string m1 = permission_mask_to_string m2 ->
  m1 = m2.
Proof.
  intros H1 H2.
  destruct (three_bit_cases m1 H1)
    as [-> | [-> | [-> | [-> | [-> | [-> | [-> | ->]]]]]]];
    destruct (three_bit_cases m2 H2)
      as [-> | [-> | [-> | [-> | [-> | [-> | [-> | ->]]]]]]];
    intros Heq; try reflexivity; vm_compute in Heq; discriminate Heq.
Qed.

(** X5. The eight entries of the table are pairwise different: two masks in
    0..7 that are given the same string are the same mask, so the string
    printed for a triple tells the triple. *)
Theorem permission_mask_to_string_injective (m1 m2 : Z) :
  0 <= m1 <= 7 -> 0 <= m2 <= 7 ->
  permission_mask_to_string m1 = permission_mask_to_string m2 ->
  m1 = m2.
Proof. apply table_injective. Qed.

Lemma permission_mask_to_string_injective_witness :
  0 <= 6 <= 7 /\ 0 <= 4 + 2 <= 7 /\
  permission_mask_to_string 6 = permission_mask_to_string (4 + 2) /\
  6 = 4 + 2.
Proof.
  repeat (split; [first [lia | reflexivity] |]).
  apply (permission_mask_to_string_injective 6 (4 + 2)); [lia | lia | reflexivity].
Defined.

Lemma triples_recompose (file_mode : Z) :
  64 * user_permissions file_mode + 8 * group_permissions file_mode
  + other_permissions file_mode
  = Z.land file_mode (octal [7; 7; 7]).
Proof.
  destruct (triples_div_mod file_mode) as (-> & -> & ->).
  change (octal [7; 7; 7]) with (Z.ones 9).
  rewrite Z.land_ones by lia. change (2 ^ 9) with 512.
  replace (file_mode / 64) with (file_mode / 8 / 8)
    by (rewrite Z.div_div by lia; reflexivity).
  pose proof (Z.div_mod file_mode 8) as E0.
  pose proof (Z.div_mod (file_mode / 8) 8) as E1.
  pose proof (Z.div_mod (file_mode / 8 / 8) 8) as E2.
  pose proof (Z.mod_pos_bound file_mode 8) as B0.
  pose proof (Z.mod_pos_bound (file_mode / 8) 8) as B1.
  pose proof (Z.mod_pos_bound (file_mode / 8 / 8) 8) as B2.
  apply Z.mod_unique_pos with (q := file_mode / 8 / 8 / 8); lia.
Qed.

(** X6. The three triples together are the low nine bits of the mode, no
    more and no less: [64 * user + 8 * group + other = mode & 0o777], for
    every integer mode. *)
Theorem triples_are_the_low_9_bits (file_mode : Z) :
  64 * user_permissions file_mode + 8 * group_permissions file_mode
  + other_permissions file_mode
  = Z.land file_mode 511 (* 0o777 *).
Proof. apply triples_recompose. Qed.

Lemma append_inv_head (prefix s1 s2 : string) :
  prefix ++ s1 = prefix ++ s2 -> s1 = s2.
Proof.
  induction prefix as [| c prefix IH]; cbn [append]; intros Heq.
  - exact Heq.
  - injection Heq as Heq. now apply IH.
Qed.

Lemma rwx_string_triples (file_mode1 file_mode2 : Z) :
  rwx_string file_mode1 6 = rwx_string file_mode2 6 ->
  rwx_string file_mode1 3 = rwx_string file_mode2 3 ->
  rwx_string file_mode1 0 = rwx_string file_mode2 0 ->
  user_permissions file_mode1 = user_permissions file_mode2 /\
  group_permissions file_mode1 = group_permissions file_mode2 /\
  other_permissions file_mode1 = other_permissions file_mode2.
Proof.
  intros Hu Hg Ho.
  repeat split; apply table_injective; try apply triples_in_range.
  - now rewrite !permission_mask_to_string_user, Hu.
  - now rewrite !permission_mask_to_string_group, Hg.
  - now rewrite !permission_mask_to_string_other, Ho.
Qed.

(** X7. A successful report shows the low nine bits of the mode in full:
    when the reports printed for the same path under two modes are the
    same, the two modes agree on [mode & 0o777]. *)
Theorem report_tells_low_9_bits
  (os_stat1 os_stat2 : string -> result stat_result)
  (path : string) (st1 st2 : stat_result) (out : stdout) :
  os_stat1 path = Ret st1 ->
  os_stat2 path = Ret st2 ->
  report os_stat1 path out = report os_stat2 path out ->
  Z.land (st_mode st1) (octal [7; 7; 7]) = Z.land (st_mode st2) (octal [7; 7; 7]).
Proof.
  intros Hstat1 Hstat2.
  rewrite (report_success os_stat1 path st1 out Hstat1),
    (report_success os_stat2 path st2 out Hstat2).
  intros Heq. injection Heq as Heq. apply app_inv_head in Heq.
  unfold expected_report in Heq.
  pose proof (f_equal (fun block => nth 1 block "") Heq) as Hu.
  pose proof (f_equal (fun block => nth 2 block "") Heq) as Hg.
  pose proof (f_equal (fun block => nth 3 block "") Heq) as Ho.
  cbv beta in Hu, Hg, Ho. cbn [nth] in Hu, Hg, Ho.
  apply (append_inv_head "  User permissions:  ") in Hu.
  apply (append_inv_head "  Group permissions: ") in Hg.
  apply (append_inv_head "  Other permissions: ") in Ho.
  destruct (rwx_string_triples _ _ Hu Hg Ho) as (Eu & Eg & Eo).
  now rewrite <- !triples_recompose, Eu, Eg, Eo.
Qed.

Lemma report_tells_low_9_bits_witness :
  sample_os_stat "/srv/app/run.sh" = Ret (mkStat 33260 (* 0o100754 *)) /\
  sample_os_stat_setuid "/srv/app/run.sh" = Ret (mkStat 35308 (* 0o104754 *)) /\
  report sample_os_stat "/srv/app/run.sh" []
  = report sample_os_stat_setuid "/srv/app/run.sh" [] /\
  Z.land 33260 (octal [7; 7; 7]) = Z.land 35308 (octal [7; 7; 7]).
Proof.
  repeat (split; [reflexivity |]).
  apply (report_tells_low_9_bits sample_os_stat sample_os_stat_setuid
           "/srv/app/run.sh" (mkStat 33260) (mkStat 35308) []);
    reflexivity.
Defined.

(** *** How much is printed *)

Lemma expected_report_length (path : string) (outcome : result stat_result) :
  List.length (expected_report path outcome)
  = if is_success outcome then 4%nat else 1%nat.
Proof.
  destruct outcome as [st | e]; cbn [expected_report is_success].
  - reflexivity.
  - now destruct (issubclass (exc_class e) FileNotFoundError).
Qed.

Lemma expected_reports_length (os_stat : string -> result stat_result)
  (paths : list string) :
  List.length
    (List.concat (map (fun p => expected_report p (os_stat p)) paths))
  = (4 * List.length (filter (fun p => is_success (os_stat p)) paths)
     + List.length (filter (fun p => negb (is_success (os_stat p))) paths))%nat.
Proof.
  induction paths as [| path rest IH].
  - reflexivity.
  - cbn [map List.concat filter].
    rewrite length_app, expected_report_length, IH.
    destruct (is_success (os_stat path)); cbn [negb List.length]; lia.
Qed.

(** X8. When every query succeeds or fails with an error deriving from
    [Exception], the run prints four lines for each path whose query
    succeeded and one line for each path whose query failed, and nothing
    else. *)
Theorem run_line_count (os_stat : string -> result stat_result)
  (paths : list string) (out : stdout) :
  (forall p, In p paths -> is_error_or_success (os_stat p) = true) ->
  List.length (fst (run os_stat paths out))
  = (List.length out
     + 4 * List.length (filter (fun p => is_success (os_stat p)) paths)
     + List.length (filter (fun p => negb (is_success (os_stat p))) paths))%nat.
Proof.
  intros Hall. rewrite (run_expected os_stat paths out Hall). cbn [fst].
  rewrite length_app, expected_reports_length. lia.
Qed.

Lemma run_line_count_witness :
  (forall p, In p sample_paths ->
             is_error_or_success (sample_os_stat p) = true) /\
  List.length (fst (run sample_os_stat sample_paths [])) = 10%nat.
Proof.
  assert (Hall : forall p, In p sample_paths ->
                           is_error_or_success (sample_os_stat p) = true).
  { intros p Hp. cbn in Hp.
    destruct Hp as [<- | [<- | [<- | [<- | []]]]]; reflexivity. }
  split; [exact Hall |].
  apply (run_line_count sample_os_stat sample_paths [] Hall).
Defined.
